(** * occ_memo_daily_slack: a shallow embedding and its verified properties

    The development follows [occ_memo_daily_slack.py] top down: Python's
    string primitives, the regular expressions of the module-level pattern
    table, the date normaliser, the listing parser, the event classifier,
    the field extractor and finally [main] as a computation over an explicit
    outside world (file system, console, chat notifications).

    Text is a [string] of bytes (UTF-8).  Character classes, case folding
    and white space are exact on ASCII; bytes above 127 are taken as
    uncased, non-blank, non-word symbols. *)

From Stdlib Require Import ZArith Ascii String List Bool Lia Sorted.
From stdpp Require Import gmap strings list pretty.

Local Open Scope Z_scope.

(* ================================================================== *)
(** * Python string primitives *)
(* ================================================================== *)

Module Py.

Definition code (c : ascii) : nat := nat_of_ascii c.

Definition between (lo hi : nat) (c : ascii) : bool :=
  (Nat.leb lo (code c)) && (Nat.leb (code c) hi).

Definition is_digit (c : ascii) : bool := between 48 57 c.
Definition is_upper (c : ascii) : bool := between 65 90 c.
Definition is_lower (c : ascii) : bool := between 97 122 c.
Definition is_alpha (c : ascii) : bool := is_upper c || is_lower c.
Definition is_alnum (c : ascii) : bool := is_alpha c || is_digit c.

(** [\w]: letters, digits and the underscore. *)
Definition is_word (c : ascii) : bool := is_alnum c || Nat.eqb (code c) 95.

(** [str.isspace] and [\s]: TAB, LF, VT, FF, CR, the four separators
    FS GS RS US, and the blank. *)
Definition is_space (c : ascii) : bool :=
  between 9 13 c || between 28 31 c || Nat.eqb (code c) 32.

Definition is_newline (c : ascii) : bool := Nat.eqb (code c) 10.

Definition lower_char (c : ascii) : ascii :=
  if is_upper c then ascii_of_nat (code c + 32) else c.

(** [s.lower()] *)
Fixpoint lower (s : string) : string :=
  match s with
  | EmptyString => EmptyString
  | String c s' => String (lower_char c) (lower s')
  end.

(** [s.startswith(p)] *)
Fixpoint startswith (p s : string) : bool :=
  match p, s with
  | EmptyString, _ => true
  | String a p', String b s' => Ascii.eqb a b && startswith p' s'
  | String _ _, EmptyString => false
  end.

(** [k in s] for two strings. *)
Fixpoint contains (k s : string) : bool :=
  startswith k s ||
  match s with
  | EmptyString => false
  | String _ s' => contains k s'
  end.

Fixpoint lstrip (s : string) : string :=
  match s with
  | String c s' => if is_space c then lstrip s' else s
  | EmptyString => EmptyString
  end.

(** Drops the blanks at the end: the string is rebuilt from the right,
    and a blank is kept only when something non-blank follows it. *)
Fixpoint rstrip (s : string) : string :=
  match s with
  | EmptyString => EmptyString
  | String c s' =>
      match rstrip s' with
      | EmptyString => if is_space c then EmptyString else String c EmptyString
      | t => String c t
      end
  end.

(** [s.strip()] *)
Definition strip (s : string) : string := rstrip (lstrip s).

(** [s.split()]: the maximal runs of non-blank characters. *)
Fixpoint split_acc (word : string) (s : string) : list string :=
  match s with
  | EmptyString => match word with EmptyString => [] | _ => [String.rev word] end
  | String c s' =>
      if is_space c
      then match word with
           | EmptyString => split_acc EmptyString s'
           | _ => String.rev word :: split_acc EmptyString s'
           end
      else split_acc (String c word) s'
  end.

Definition split (s : string) : list string := split_acc EmptyString s.

(** [sep.join(parts)] *)
Fixpoint join (sep : string) (parts : list string) : string :=
  match parts with
  | [] => EmptyString
  | [p] => p
  | p :: rest => p +:+ sep +:+ join sep rest
  end.

(** Truthiness of an [Optional[str]]: [None] and the empty string are
    false. *)
Definition truthy (o : option string) : bool :=
  match o with
  | Some (String _ _) => true
  | _ => false
  end.

(** [a or b] on [Optional[str]] values. *)
Definition or_else (a b : option string) : option string :=
  if truthy a then a else b.

(** [(o or "")] *)
Definition or_empty (o : option string) : string :=
  match o with
  | Some s => s
  | None => EmptyString
  end.

(** [int(digits)] for a run of decimal digits, most significant first
    (without the interpreter's configurable limit on the number of
    digits). *)
Fixpoint int_acc (acc : Z) (s : string) : Z :=
  match s with
  | EmptyString => acc
  | String c s' => int_acc (10 * acc + Z.of_nat (code c - 48)) s'
  end.

Definition int_of_digits (s : string) : Z := int_acc 0 s.

(** The digit groups of an integer literal: digits with single
    underscores between them. *)
Fixpoint digit_groups (after_digit : bool) (s : string) : bool :=
  match s with
  | EmptyString => after_digit
  | String c s' =>
      if is_digit c then digit_groups true s'
      else if Nat.eqb (code c) 95 then after_digit && digit_groups false s'
      else false
  end.

Fixpoint drop_underscores (s : string) : string :=
  match s with
  | EmptyString => EmptyString
  | String c s' =>
      if Nat.eqb (code c) 95 then drop_underscores s'
      else String c (drop_underscores s')
  end.

Definition int_unsigned (s : string) : option Z :=
  if digit_groups false s then Some (int_of_digits (drop_underscores s))
  else None.

(** [int(s)] for a string: blanks around, an optional sign, digit
    groups.  [None] is [ValueError]. *)
Definition int (s : string) : option Z :=
  match strip s with
  | String c s' =>
      if Nat.eqb (code c) 45 then Z.opp <$> int_unsigned s'
      else if Nat.eqb (code c) 43 then int_unsigned s'
      else int_unsigned (String c s')
  | EmptyString => None
  end.

(** [str(n)] for an integer. *)
Definition str (n : Z) : string := pretty n.

End Py.

(* ================================================================== *)
(** * Regular expressions *)
(* ================================================================== *)

(** The fragment of [re] that the pattern table uses: classes, sequence,
    ordered alternative, greedy repetition, one capturing group, the line
    anchors of [re.M] and the word boundary.  Matching is by backtracking
    with a continuation, which gives Python's priorities: the leftmost start,
    the first alternative that lets the rest succeed, the longest repetition
    that lets the rest succeed. *)

Module Re.

Inductive regex : Type :=
| Eps : regex
| Cls : (ascii -> bool) -> regex
| Cat : regex -> regex -> regex
| Alt : regex -> regex -> regex
| Star : regex -> regex
| Grp : regex -> regex
| Bol : regex
| Eol : regex
| Wordb : regex.

(** A position in the subject: the character just before it, the text
    still to read, and what group 1 holds so far. *)
Record cursor : Type := Cursor {
  before : option ascii;
  rest : string;
  group1 : option string
}.

Definition advance (a : ascii) (s : string) (c : cursor) : cursor :=
  Cursor (Some a) s (group1 c).

Definition close_group (c0 c1 : cursor) : cursor :=
  Cursor (before c1) (rest c1)
    (Some (String.substring 0 (String.length (rest c0) - String.length (rest c1))
                            (rest c0))).

Definition word_before (c : cursor) : bool :=
  match before c with Some a => Py.is_word a | None => false end.

Definition word_after (c : cursor) : bool :=
  match rest c with String a _ => Py.is_word a | EmptyString => false end.

(** Greedy repetition of [body]: one more turn first, the continuation
    when that fails.  A turn must consume text, so the length of the text
    left, plus one, is fuel enough ([star_iter_fuel] below). *)
Fixpoint star_iter {R : Type}
    (body : cursor -> (cursor -> option R) -> option R)
    (k : cursor -> option R) (fuel : nat) (c : cursor) {struct fuel} : option R :=
  match fuel with
  | O => k c
  | S fuel' =>
      match body c (fun c' =>
               if Nat.ltb (String.length (rest c')) (String.length (rest c))
               then star_iter body k fuel' c' else None) with
      | Some x => Some x
      | None => k c
      end
  end.

Fixpoint run {R : Type} (r : regex) (c : cursor) (k : cursor -> option R)
  : option R :=
  match r with
  | Eps => k c
  | Cls p =>
      match rest c with
      | String a s => if p a then k (advance a s c) else None
      | EmptyString => None
      end
  | Cat r1 r2 => run r1 c (fun c' => run r2 c' k)
  | Alt r1 r2 =>
      match run r1 c k with
      | Some x => Some x
      | None => run r2 c k
      end
  | Star r1 => star_iter (run r1) k (S (String.length (rest c))) c
  | Grp r1 => run r1 c (fun c' => k (close_group c c'))
  | Bol =>
      match before c with
      | None => k c
      | Some a => if Py.is_newline a then k c else None
      end
  | Eol =>
      match rest c with
      | EmptyString => k c
      | String a _ => if Py.is_newline a then k c else None
      end
  | Wordb => if xorb (word_before c) (word_after c) then k c else None
  end.

(** A match object, reduced to what the program reads from it: whether
    there is one, and [group(1)]. *)
Definition match_at (r : regex) (prev : option ascii) (s : string)
  : option (option string) :=
  run r (Cursor prev s None) (fun c => Some (group1 c)).

(** [re.match(r, s)] *)
Definition rmatch (r : regex) (s : string) : option (option string) :=
  match_at r None s.

Fixpoint search_from (r : regex) (prev : option ascii) (s : string)
  : option (option string) :=
  match match_at r prev s with
  | Some g => Some g
  | None =>
      match s with
      | EmptyString => None
      | String a s' => search_from r (Some a) s'
      end
  end.

(** [r.search(s)] *)
Definition search (r : regex) (s : string) : option (option string) :=
  search_from r None s.

(** [m.group(1)] of [r.search(s)], for a pattern whose group always takes
    part in a match. *)
Definition search_group (r : regex) (s : string) : option string :=
  match search r s with
  | Some (Some g) => Some g
  | _ => None
  end.

Definition found (r : regex) (s : string) : bool :=
  match search r s with Some _ => true | None => false end.

(** ** Pattern syntax *)

Definition chr (a : ascii) : regex := Cls (Ascii.eqb a).

(** A character under [re.I]. *)
Definition chr_i (a : ascii) : regex :=
  Cls (fun b => Ascii.eqb (Py.lower_char a) (Py.lower_char b)).

Fixpoint lit (s : string) : regex :=
  match s with
  | EmptyString => Eps
  | String a s' => Cat (chr a) (lit s')
  end.

Fixpoint lit_i (s : string) : regex :=
  match s with
  | EmptyString => Eps
  | String a s' => Cat (chr_i a) (lit_i s')
  end.

Definition plus (r : regex) : regex := Cat r (Star r).
Definition opt (r : regex) : regex := Alt r Eps.

Fixpoint times (n : nat) (r : regex) : regex :=
  match n with
  | O => Eps
  | S n' => Cat r (times n' r)
  end.

Fixpoint upto (n : nat) (r : regex) : regex :=
  match n with
  | O => Eps
  | S n' => Alt (Cat r (upto n' r)) Eps
  end.

(** [r{lo,hi}] *)
Definition rep (lo hi : nat) (r : regex) : regex :=
  Cat (times lo r) (upto (hi - lo) r).

Definition seq (rs : list regex) : regex := fold_right Cat Eps rs.

Definition digit : regex := Cls Py.is_digit.
Definition space : regex := Cls Py.is_space.
Definition alpha : regex := Cls Py.is_alpha.
Definition dot : regex := Cls (fun a => negb (Py.is_newline a)).

End Re.

Import Re.

(* ================================================================== *)
(** * Calendar dates *)
(* ================================================================== *)

Module Date.

(** [datetime.date]: a day of the proleptic Gregorian calendar. *)
Record date : Type := mk { year : Z; month : Z; day : Z }.

Definition is_leap (y : Z) : bool :=
  (Z.eqb (y mod 4) 0 && negb (Z.eqb (y mod 100) 0)) || Z.eqb (y mod 400) 0.

Definition days_in_month (y m : Z) : Z :=
  if Z.eqb m 2 then (if is_leap y then 29 else 28)
  else if Z.eqb m 4 || Z.eqb m 6 || Z.eqb m 9 || Z.eqb m 11 then 30
  else 31.

(** The constructor's range check ([ValueError] otherwise). *)
Definition valid (y m d : Z) : bool :=
  Z.leb 1 y && Z.leb y 9999 && Z.leb 1 m && Z.leb m 12 &&
  Z.leb 1 d && Z.leb d (days_in_month y m).

Definition make (y m d : Z) : option date :=
  if valid y m d then Some (mk y m d) else None.

(** [a >= b] and [a < b] on dates. *)
Definition geb (a b : date) : bool :=
  Z.ltb (year b) (year a) ||
  (Z.eqb (year a) (year b) &&
     (Z.ltb (month b) (month a) ||
      (Z.eqb (month a) (month b) && Z.leb (day b) (day a)))).

Definition ltb (a b : date) : bool := negb (geb a b).

Fixpoint days_before_month (y : Z) (m : nat) : Z :=
  match m with
  | O => 0
  | S m' => days_before_month y m' + days_in_month y (Z.of_nat m)
  end.

(** [d.toordinal()]: day 1 is 0001-01-01. *)
Definition toordinal (d : date) : Z :=
  let y := year d - 1 in
  365 * y + y / 4 - y / 100 + y / 400
  + days_before_month (year d) (Z.to_nat (month d) - 1) + day d.

Definition max_ordinal : Z := 3652059.

Definition two_digits (n : Z) : string :=
  if Z.ltb n 10 then "0" +:+ pretty n else pretty n.

(** [d.strftime("%Y-%m-%d")] (the C library does not pad the year). *)
Definition strftime (d : date) : string :=
  pretty (year d) +:+ "-" +:+ two_digits (month d) +:+ "-" +:+ two_digits (day d).

Fixpoint all_digits (s : string) : bool :=
  match s with
  | EmptyString => true
  | String c s' => Py.is_digit c && all_digits s'
  end.

Definition field (start len : nat) (s : string) : option Z :=
  let f := String.substring start len s in
  if all_digits f && Nat.eqb (String.length f) len
  then Some (Py.int_of_digits f) else None.

(** [date.fromisoformat(s)] on the extended form [YYYY-MM-DD], the only
    form [strftime] above can hand to it.  [None] is [ValueError]. *)
Definition fromisoformat (s : string) : option date :=
  if Nat.eqb (String.length s) 10
     && Py.startswith "-" (String.substring 4 1 s)
     && Py.startswith "-" (String.substring 7 1 s)
  then
    match field 0 4 s, field 5 2 s, field 8 2 s with
    | Some y, Some m, Some d => make y m d
    | _, _, _ => None
    end
  else None.

End Date.

Abbreviation date := Date.date.

(* ================================================================== *)
(** * A reference date parser *)
(* ================================================================== *)

(** [dateutil.parser.parse(s, fuzzy=True)] is a collaborator from outside
    the program; the program is verified for every such parser.  The
    instance below fixes its behaviour on the two shapes that the pattern
    table captures, a month name followed by day and year and the numeric
    month/day/year, so that runs can be evaluated: a calendar date that does
    not exist is refused. *)

Module Dateutil.

Definition months : list (string * Z) :=
  [("january", 1); ("february", 2); ("march", 3); ("april", 4);
   ("may", 5); ("june", 6); ("july", 7); ("august", 8);
   ("september", 9); ("october", 10); ("november", 11); ("december", 12);
   ("jan", 1); ("feb", 2); ("mar", 3); ("apr", 4); ("jun", 6); ("jul", 7);
   ("aug", 8); ("sep", 9); ("sept", 9); ("oct", 10); ("nov", 11); ("dec", 12)].

Fixpoint month_number (table : list (string * Z)) (name : string) : option Z :=
  match table with
  | [] => None
  | (n, k) :: table' => if String.eqb n name then Some k else month_number table' name
  end.

(** Splits at every character of the class [sep]. *)
Fixpoint fields_acc (sep : ascii -> bool) (word : string) (s : string) : list string :=
  match s with
  | EmptyString => [String.rev word]
  | String c s' =>
      if sep c then String.rev word :: fields_acc sep EmptyString s'
      else fields_acc sep (String c word) s'
  end.

Definition number (s : string) : option Z :=
  match s with
  | EmptyString => None
  | _ => if Date.all_digits s then Some (Py.int_of_digits s) else None
  end.

Definition is_slash (c : ascii) : bool := Nat.eqb (Py.code c) 47.
Definition is_comma (c : ascii) : bool := Nat.eqb (Py.code c) 44.

Definition numeric (s : string) : option date :=
  match fields_acc is_slash EmptyString (Py.strip s) with
  | [m; d; y] =>
      match number m, number d, number y with
      | Some m, Some d, Some y => Date.make y m d
      | _, _, _ => None
      end
  | _ => None
  end.

Definition named (s : string) : option date :=
  match fields_acc is_comma EmptyString s with
  | [md; y] =>
      match Py.split md, number (Py.strip y) with
      | [m; d], Some y =>
          match month_number months (Py.lower m), number d with
          | Some m, Some d => Date.make y m d
          | _, _ => None
          end
      | _, _ => None
      end
  | _ => None
  end.

Definition parse (s : string) : option date :=
  match numeric s with
  | Some d => Some d
  | None => named s
  end.

End Dateutil.

(* ================================================================== *)
(** * Module-level constants *)
(* ================================================================== *)

Definition BASE : string := "https://infomemo.theocc.com".

(** The taxonomy, in declaration order (a [dict] iterates in insertion
    order). *)
Definition EVENT_KEYWORDS : list (string * list string) :=
  [("reverse split", ["reverse split"]);
   ("split", ["stock split"; "split "]);
   ("name/symbol change", ["name/symbol change"; "symbol change"; "name change"]);
   ("merger", ["merger"; "combination"; "acquisition"]);
   ("tender", ["tender offer"]);
   ("liquidation", ["liquidation"])].

(** [[A-Za-z]{3,9}\s+\d{1,2},\s*\d{4}] *)
Definition long_date : regex :=
  seq [rep 3 9 alpha; plus space; rep 1 2 digit; lit ","; Star space; rep 4 4 digit].

(** [[A-Za-z0-9/]+] *)
Definition symbol_token : regex :=
  plus (Cls (fun a => Py.is_alnum a || Ascii.eqb a "/")).

(** [/infomemos\?number=(\d+)] *)
Definition RE_MEMO_NUMBER : regex :=
  seq [lit "/infomemos?number="; Grp (plus digit)].

(** [Effective Date:\s*([A-Za-z]{3,9}\s+\d{1,2},\s*\d{4})], [re.I] *)
Definition RE_EFFECTIVE_DATE_LINE : regex :=
  seq [lit_i "Effective Date:"; Star space; Grp long_date].

(** [^Date:\s*(\d{1,2}/\d{1,2}/\d{4})\s*$], [re.M] *)
Definition RE_DATE_FIELD : regex :=
  seq [Bol; lit "Date:"; Star space;
       Grp (seq [rep 1 2 digit; lit "/"; rep 1 2 digit; lit "/"; rep 4 4 digit]);
       Star space; Eol].

(** [effective (?:at|before) the (?:open|opening) (?:of (?:the )?business )?(?:on )?(...)],
    [re.I], the group being the long date. *)
Definition RE_MARKET_OPEN_LINE : regex :=
  seq [lit_i "effective "; Alt (lit_i "at") (lit_i "before"); lit_i " the ";
       Alt (lit_i "open") (lit_i "opening"); lit_i " ";
       opt (seq [lit_i "of "; opt (lit_i "the "); lit_i "business "]);
       opt (lit_i "on ");
       Grp long_date].

(** [^Subject:\s*(.+)$], [re.M | re.I] *)
Definition RE_SUBJECT : regex :=
  seq [Bol; lit_i "Subject:"; Star space; Grp (plus dot); Eol].

(** [^Option Symbol[s]?:\s*(.+)$], [re.M | re.I] *)
Definition RE_OPT_SYM : regex :=
  seq [Bol; lit_i "Option Symbol"; opt (chr_i "s"); lit ":"; Star space;
       Grp (plus dot); Eol].

(** [^New Symbol[s]?:\s*(.+)$], [re.M | re.I] *)
Definition RE_NEW_SYM : regex :=
  seq [Bol; lit_i "New Symbol"; opt (chr_i "s"); lit ":"; Star space;
       Grp (plus dot); Eol].

(** [New Symbols?:\s*([A-Za-z0-9/]+)], [re.I] *)
Definition RE_TITLED_NEW_SYM : regex :=
  seq [lit_i "New Symbol"; opt (chr_i "s"); lit ":"; Star space; Grp symbol_token].

(** [Adjusted Option Symbol[s]?:\s*([A-Za-z0-9/]+)], [re.I] *)
Definition RE_ADJUSTED_SYM : regex :=
  seq [lit_i "Adjusted Option Symbol"; opt (chr_i "s"); lit ":"; Star space;
       Grp symbol_token].

(** [\b\d+\s*for\s*\d+\b], the ratio pattern of [classify_event]. *)
Definition RE_RATIO : regex :=
  seq [Wordb; plus digit; Star space; lit "for"; Star space; plus digit; Wordb].

(** [\d{2}/\d{2}/\d{4}], the date shape of the listing's lookback. *)
Definition RE_DATE_SHAPE : regex :=
  seq [rep 2 2 digit; lit "/"; rep 2 2 digit; lit "/"; rep 4 4 digit].

(* ================================================================== *)
(** * The record type *)
(* ================================================================== *)

Record MemoRow : Type := mkMemoRow {
  memo_number : Z;
  title : string;
  url : string;
  post_date : option string;
  effective_date : option string;
  event_type : option string;
  option_symbols : option string;
  new_symbols : option string;
  subject : option string;
  details : option string
}.

(* ================================================================== *)
(** * The parsed listing page *)
(* ================================================================== *)

(** What [BeautifulSoup(html, "html.parser")] hands to the program: a
    forest of tags and text nodes. *)
#[warnings="-register-all"]
Inductive node : Type :=
| Tag (name : string) (attrs : gmap string string) (children : list node)
| NavigableString (s : string).

Module Soup.

(** The text nodes below a node, in document order. *)
Fixpoint strings (n : node) : list string :=
  match n with
  | NavigableString s => [s]
  | Tag _ _ cs =>
      (fix each (l : list node) : list string :=
         match l with
         | [] => []
         | c :: l' => strings c ++ each l'
         end) cs
  end.

Definition nonempty (s : string) : bool :=
  match s with EmptyString => false | _ => true end.

(** [n.get_text(sep, strip=True)] *)
Definition get_text (sep : string) (n : node) : string :=
  Py.join sep (List.filter nonempty (map Py.strip (strings n))).

(** Truth value of a node: a tag is always true, a text node is true when
    it is not empty. *)
Definition truthy (n : node) : bool :=
  match n with
  | Tag _ _ _ => true
  | NavigableString s => nonempty s
  end.

(** An anchor found by [find_all("a", href=True)], with the siblings that
    precede its parent, nearest first (none when the parent is the
    document itself). *)
Record anchor : Type := mkAnchor {
  href : string;
  anchor_node : node;
  parent_previous : list node
}.

(** [up] are the previous siblings of the parent of [n], [prev] those of
    [n] itself, both nearest first. *)
Fixpoint anchors_of (up prev : list node) (n : node) : list anchor :=
  match n with
  | NavigableString _ => []
  | Tag name attrs cs =>
      (match attrs !! "href" with
       | Some h => if String.eqb name "a" then [mkAnchor h n up] else []
       | None => []
       end)
      ++ (fix each (seen : list node) (l : list node) : list anchor :=
            match l with
            | [] => []
            | c :: l' => anchors_of prev seen c ++ each (c :: seen) l'
            end) [] cs
  end.

Fixpoint forest_anchors (seen : list node) (l : list node) : list anchor :=
  match l with
  | [] => []
  | c :: l' => anchors_of [] seen c ++ forest_anchors (c :: seen) l'
  end.

(** [soup.find_all("a", href=True)] *)
Definition find_all_a (soup : list node) : list anchor := forest_anchors [] soup.

End Soup.

(* ================================================================== *)
(** * The event classifier *)
(* ================================================================== *)

(** The loop over [EVENT_KEYWORDS.items()]: the first label one of whose
    keys occurs in the text. *)
Fixpoint first_label (table : list (string * list string)) (text : string)
  : option string :=
  match table with
  | [] => None
  | (label, keys) :: table' =>
      if existsb (fun k => Py.contains k text) keys then Some label
      else first_label table' text
  end.

(** The body of [classify_event] once [text] is bound. *)
Definition classify_text (text : string) : option string :=
  match first_label EVENT_KEYWORDS text with
  | Some label => Some label
  | None =>
      if Py.contains "reverse" text && Py.contains "split" text
      then Some "reverse split"
      else if Py.contains "stock split" text || found RE_RATIO text
      then Some "split"
      else None
  end.

Definition classify_event (title : string) (subject : option string)
  : option string :=
  classify_text (Py.lower (title +:+ " " +:+ Py.or_empty subject)).

(* ================================================================== *)
(** * Sorting by descending number *)
(* ================================================================== *)

(** [sorted(xs, key=..., reverse=True)] on an integer key: stable, so an
    element goes in front of the first one whose key is not larger.  The
    same function stands for [sort_values(..., ascending=False)]: the frame
    it is applied to has pairwise distinct numbers
    ([output_rows_strictly_descending] below), and then the order does not
    depend on the sorting algorithm. *)
Fixpoint insert_desc {A : Type} (key : A -> Z) (x : A) (l : list A) : list A :=
  match l with
  | [] => [x]
  | y :: l' =>
      if Z.ltb (key x) (key y) then y :: insert_desc key x l'
      else x :: l
  end.

Definition sorted_desc {A : Type} (key : A -> Z) (l : list A) : list A :=
  fold_right (insert_desc key) [] l.

(* ================================================================== *)
(** * Command line, data frame and the outside world *)
(* ================================================================== *)

(** The namespace [parse_args] returns: one attribute per declared option,
    named after the long option with dashes turned into underscores. *)
Record Namespace : Type := mkArgs {
  out : string;
  state : string;
  since_posted_days : option Z;
  include : list string;
  exclude_past_effective : bool;
  slack_webhook : option string;
  slack_token : option string;
  slack_channel : option string;
  slack_upload_files : bool
}.

(** A line of the data frame built from [results]: nine columns, in the
    order of the dict literal. *)
Record Row : Type := mkRow {
  c_memo_number : Z;
  c_post_date : option string;
  c_effective_date : option string;
  c_event_type : option string;
  c_title : string;
  c_subject : option string;
  c_option_symbols : option string;
  c_new_symbols : option string;
  c_url : string
}.

Inductive file : Type :=
| Xlsx (df : list Row)
| Csv (df : list Row)
| Text (s : string).

Inductive notification : Type :=
| Webhook (webhook_url text : string)
| ChatPost (token channel text : string) (files : option (list string)).

(** Everything a run can change outside itself. *)
Record world : Type := mkWorld {
  fs : gmap string file;
  dirs : gset string;
  stdout : list string;
  stderr : list string;
  posted : list notification
}.

(** What a run reads from outside: the parsed page behind [SEARCH_URL],
    the clock, and whether [slack_sdk] could be imported. *)
Record run : Type := mkRun {
  page : list node;
  today : date;
  stamp : string;
  slack_sdk : bool
}.

Inductive exn : Type :=
| AttributeError (what : string)
| OverflowError (what : string)
| OSError (path : string).

(** [str(e)] *)
Definition exn_text (e : exn) : string :=
  match e with
  | AttributeError what => what
  | OverflowError what => what
  | OSError path => "cannot open '" +:+ path +:+ "'"
  end.

Inductive result (A : Type) : Type :=
| Ok (a : A)
| Raise (e : exn).

Arguments Ok {A} a.
Arguments Raise {A} e.

(** Computations over the world that may raise. *)
Definition M (A : Type) : Type := world -> result A * world.

Definition ret {A : Type} (a : A) : M A := fun w => (Ok a, w).

Definition raise {A : Type} (e : exn) : M A := fun w => (Raise e, w).

Definition bind {A B : Type} (m : M A) (k : A -> M B) : M B :=
  fun w =>
    match m w with
    | (Ok a, w') => k a w'
    | (Raise e, w') => (Raise e, w')
    end.

(** [try: m  except Exception as e: h(e)] *)
Definition try_except {A : Type} (m : M A) (h : exn -> M A) : M A :=
  fun w =>
    match m w with
    | (Ok a, w') => (Ok a, w')
    | (Raise e, w') => h e w'
    end.

Definition lift {A : Type} (r : result A) : M A := fun w => (r, w).

Declare Scope run_scope.
Delimit Scope run_scope with run.
Notation "x <- m ;; k" := (bind m (fun x => k))
  (at level 100, m at next level, right associativity) : run_scope.
Notation "m ;;; k" := (bind m (fun _ => k))
  (at level 100, right associativity) : run_scope.

Definition print (line : string) : M unit :=
  fun w => (Ok tt, mkWorld (fs w) (dirs w) (stdout w ++ [line]) (stderr w) (posted w)).

Definition warn (line : string) : M unit :=
  fun w => (Ok tt, mkWorld (fs w) (dirs w) (stdout w) (stderr w ++ [line]) (posted w)).

(** [os.makedirs(path, exist_ok=True)] *)
Definition makedirs (path : string) : M unit :=
  fun w => (Ok tt, mkWorld (fs w) ({[path]} ∪ dirs w) (stdout w) (stderr w) (posted w)).

Definition post (n : notification) : M unit :=
  fun w => (Ok tt, mkWorld (fs w) (dirs w) (stdout w) (stderr w) (posted w ++ [n])).

(** [os.path.join(dir, name)] for a relative [name]. *)
Definition path_join (dir name : string) : string :=
  match dir with
  | EmptyString => name
  | _ => if Py.startswith "/" (String.rev dir) then dir +:+ name
         else dir +:+ "/" +:+ name
  end.

(* ================================================================== *)
(** * Sample documents and runs *)
(* ================================================================== *)

Module Sample.

(** A memo whose labelled date does not exist in the calendar, followed
    by a well-formed date field. *)
Definition memo_bad_label : string :=
  "Subject: XYZ Corp - Symbol Change
Effective Date: February 30, 2025
Date: 03/04/2025
".

Definition memo_103 : string :=
  "Subject: XYZ Corp - Reverse Split
Option Symbol: XYZ
New Symbol: XYZ1
Effective Date: May 1, 2025
".

(** The document behind each memo: 102 cannot be fetched. *)
Definition fetch (url : string) : string + string :=
  if String.eqb url "https://infomemo.theocc.com/infomemos?number=103"
  then inr memo_103
  else if String.eqb url "https://infomemo.theocc.com/infomemos?number=102"
  then inl "503 Server Error"
  else inr memo_bad_label.

Definition render (df : list Row) : string := "".

Definition writable (path : string) : bool := true.

Definition listing_line (posted number title : string) : node :=
  Tag "tr" ∅
    [Tag "td" ∅ [NavigableString posted];
     Tag "td" ∅
       [Tag "a" {[ "href" := "/infomemos?number=" +:+ number ]}
          [NavigableString title]]].

(** A listing page with the memos 103, 102 and 101. *)
Definition page : list node :=
  [Tag "table" ∅
     [listing_line "03/06/2025" "103" "XYZ Corp - Reverse Split";
      listing_line "03/05/2025" "102" "ABC Inc - Cash Distribution";
      listing_line "03/04/2025" "101" "Old Corp - Symbol Change"]].

Definition today : date := Date.mk 2025 6 1.

Definition this_run : run := mkRun page today "20250601_090000" true.

(** The default command line, with the past-effective toggle and the
    lookback as given. *)
Definition args (toggle : bool) (lookback : option Z) : Namespace :=
  mkArgs "./out" "./occ_last_number.txt" lookback
         ["reverse"; "split"; "name"; "symbol"; "merger"]
         toggle None None None false.

Definition no_files : world := mkWorld ∅ ∅ [] [] [].

(** The world when the state file holds [n]. *)
Definition seen_up_to (n : string) : world :=
  mkWorld {[ "./occ_last_number.txt" := Text n ]} ∅ [] [] [].

(** The line of memo 103 in the output of [this_run]. *)
Definition row_103 : Row :=
  mkRow 103 (Some "2025-03-06") (Some "2025-05-01") (Some "reverse split")
        "XYZ Corp - Reverse Split" (Some "XYZ Corp - Reverse Split")
        (Some "XYZ") (Some "XYZ1")
        "https://infomemo.theocc.com/infomemos?number=103".

(** The line of memo 102, whose document cannot be fetched. *)
Definition row_102 : Row :=
  mkRow 102 (Some "2025-03-05") None None
        "ABC Inc - Cash Distribution" None None None
        "https://infomemo.theocc.com/infomemos?number=102".


End Sample.

(* ================================================================== *)
(** * The program, for any date parser *)
(* ================================================================== *)

Section Program.

(** [dateparser.parse(s, fuzzy=True)]; [None] when it raises. *)
Variable dateparser_parse : string -> option date.

Definition _to_iso (date_str : string) : option string :=
  match dateparser_parse date_str with
  | Some d => Some (Date.strftime d)
  | None => None
  end.

(** ** The listing parser *)

(** The [while sib and cnt < 12] walk over the previous siblings. *)
Fixpoint texts_back (cnt : nat) (sibs : list node) : list string :=
  match cnt, sibs with
  | S cnt', sib :: sibs' =>
      if Soup.truthy sib then Soup.get_text " " sib :: texts_back cnt' sibs'
      else []
  | _, _ => []
  end.

(** [re.match(r"\d{2}/\d{2}/\d{4}", t)] as a truth value. *)
Definition date_shaped (t : string) : bool :=
  match rmatch RE_DATE_SHAPE t with Some _ => true | None => false end.

(** [dates], from the fragments collected walking backwards. *)
Definition lookback_dates (back : list string) : list string :=
  List.filter date_shaped (rev (List.filter Soup.nonempty back)).

(** The pair [(post_date, effective_date)] read off [dates]. *)
Definition date_hints (dates : list string) : option string * option string :=
  match dates with
  | [] => (None, None)
  | [d0] => (_to_iso d0, None)
  | d0 :: d1 :: _ => (_to_iso d0, _to_iso d1)
  end.

(** One turn of the loop over the anchors: [None] for [continue]. *)
Definition row_of_anchor (a : Soup.anchor) : option MemoRow :=
  match search_group RE_MEMO_NUMBER (Soup.href a) with
  | None => None
  | Some digits =>
      let num := Py.int_of_digits digits in
      let title := Soup.get_text "" (Soup.anchor_node a) in
      let url := if Py.startswith "/infomemos" (Soup.href a)
                 then BASE +:+ Soup.href a else Soup.href a in
      let hints := date_hints (lookback_dates (texts_back 12 (Soup.parent_previous a))) in
      Some (mkMemoRow num title url (fst hints) (snd hints) None None None None None)
  end.

Definition listing_rows (soup : list node) : list MemoRow :=
  omap row_of_anchor (Soup.find_all_a soup).

(** [uniq], a dict in insertion order: a row enters only under a number
    that is not yet a key. *)
Definition has_key (k : Z) (uniq : list (Z * MemoRow)) : bool :=
  existsb (fun kv => Z.eqb (fst kv) k) uniq.

Definition uniq_add (uniq : list (Z * MemoRow)) (r : MemoRow) : list (Z * MemoRow) :=
  if has_key (memo_number r) uniq then uniq else uniq ++ [(memo_number r, r)].

Definition uniq_of (rows : list MemoRow) : list (Z * MemoRow) :=
  fold_left uniq_add rows [].

Definition parse_search_listing (soup : list node) : list MemoRow :=
  sorted_desc memo_number (map snd (uniq_of (listing_rows soup))).

(** ** The field extractor *)

Record fields : Type := mkFields {
  f_subject : option string;
  f_option_symbols : option string;
  f_new_symbols : option string;
  f_effective_date : option string
}.

(** [m = RE.search(text); if m: x = m.group(1).strip()] *)
Definition stripped_group (r : regex) (text : string) : option string :=
  Py.strip <$> search_group r text.

Definition extract_new_symbols (text : string) : option string :=
  match search_group RE_NEW_SYM text with
  | Some g => Some (Py.strip g)
  | None =>
      match search_group RE_TITLED_NEW_SYM text with
      | Some g => Some (Py.strip g)
      | None => stripped_group RE_ADJUSTED_SYM text
      end
  end.

(** The effective-date cascade: the branch is chosen by whether the
    pattern matched; what [_to_iso] makes of the capture is the result. *)
Definition extract_effective_date (text : string) : option string :=
  match search_group RE_EFFECTIVE_DATE_LINE text with
  | Some g => _to_iso g
  | None =>
      match search_group RE_DATE_FIELD text with
      | Some g => _to_iso g
      | None =>
          match search_group RE_MARKET_OPEN_LINE text with
          | Some g => _to_iso g
          | None => None
          end
      end
  end.

Definition parse_pdf_fields (text : string) : fields :=
  mkFields (stripped_group RE_SUBJECT text)
           (stripped_group RE_OPT_SYM text)
           (extract_new_symbols text)
           (extract_effective_date text).

(** ** The run *)

(** [fetch_pdf_text(session, url)]: the text of the document, or the
    message of the exception it raises. *)
Variable fetch_pdf_text : string -> string + string.

(** The Slack summary and [build_korean_table], as one text. *)
Variable render_message : list Row -> string.

(** Whether [open(path, "w")] and the frame writers succeed on a path. *)
Variable writable : string -> bool.

Definition write (path : string) (content : file) : M unit :=
  fun w =>
    if writable path
    then (Ok tt, mkWorld (<[path := content]> (fs w)) (dirs w) (stdout w)
                         (stderr w) (posted w))
    else (Raise (OSError path), w).

(** The watermark read at the start: [0] unless the state file exists
    and holds an integer. *)
Definition read_watermark (path : string) (w : world) : Z :=
  match fs w !! path with
  | Some (Text s) => default 0 (Py.int (Py.strip s))
  | _ => 0
  end.

(** Watermark mode. *)
Definition select_watermark (last_n : Z) (listing : list MemoRow) : list MemoRow :=
  List.filter (fun r => Z.ltb last_n (memo_number r)) listing.

(** Lookback mode, [cutoff] being the ordinal of [today - timedelta(days)]. *)
Definition posted_since (cutoff : Z) (r : MemoRow) : bool :=
  match post_date r with
  | Some (String c s) =>
      match Date.fromisoformat (String c s) with
      | Some d => Z.leb cutoff (Date.toordinal d)
      | None => false
      end
  | _ => false
  end.

Definition select_lookback (today : date) (days : Z) (listing : list MemoRow)
  : result (list MemoRow) :=
  let cutoff := Date.toordinal today - days in
  if Z.leb 1 cutoff && Z.leb cutoff Date.max_ordinal
  then Ok (List.filter (posted_since cutoff) listing)
  else Raise (OverflowError "date value out of range").

(** The selection stage: [picked]. *)
Definition pick (args : Namespace) (today : date) (w : world)
                (listing : list MemoRow) : result (list MemoRow) :=
  match since_posted_days args with
  | Some days => select_lookback today days listing
  | None => Ok (select_watermark (read_watermark (state args) w) listing)
  end.

Definition include_text (args : Namespace) : string :=
  Py.lower (Py.join " " (include args)).

Definition hay (r : MemoRow) : string :=
  Py.lower (title r +:+ " " +:+ Py.or_empty (subject r)).

Definition any_keyword_in (text haystack : string) : bool :=
  existsb (fun kw => Py.contains kw haystack) (Py.split text).

(** The assignments of the [try] body. *)
Definition with_fields (r : MemoRow) (f : fields) : MemoRow :=
  mkMemoRow (memo_number r) (title r) (url r) (post_date r)
    (Py.or_else (f_effective_date f) (effective_date r))
    (classify_event (title r) (f_subject f))
    (Py.or_else (f_option_symbols f) (option_symbols r))
    (Py.or_else (f_new_symbols f) (new_symbols r))
    (f_subject f)
    (details r).

(** The [except] branch. *)
Definition with_error (r : MemoRow) (e : string) : MemoRow :=
  mkMemoRow (memo_number r) (title r) (url r) (post_date r) (effective_date r)
    (event_type r) (option_symbols r) (new_symbols r) (subject r)
    (Some ("parse_error: " +:+ e)).

(** One turn of the loop over [picked]: the record appended to
    [results], or [None] for [continue]. *)
Definition enrich_one (inc : string) (r : MemoRow) : option MemoRow :=
  match fetch_pdf_text (url r) with
  | inr text =>
      let r' := with_fields r (parse_pdf_fields text) in
      if Soup.nonempty inc && negb (any_keyword_in inc (hay r'))
      then None else Some r'
  | inl e => Some (with_error r e)
  end.

Definition enrich (inc : string) (picked : list MemoRow) : list MemoRow :=
  omap (enrich_one inc) picked.

Definition row_of (r : MemoRow) : Row :=
  mkRow (memo_number r) (post_date r) (effective_date r) (event_type r)
        (title r) (subject r) (option_symbols r) (new_symbols r) (url r).

(** [pd.DataFrame([...  for r in results])] *)
Definition frame (results : list MemoRow) : list Row := map row_of results.

(** The column [eff_d]. *)
Definition eff_d (row : Row) : option date :=
  match c_effective_date row with
  | Some s => Date.fromisoformat s
  | None => None
  end.

(** [df[df["eff_d"].isna() | (df["eff_d"] >= today)]] *)
Definition keep_effective (today : date) (row : Row) : bool :=
  match eff_d row with
  | None => true
  | Some d => Date.geb d today
  end.

Definition drop_past_effective (today : date) (df : list Row) : list Row :=
  List.filter (keep_effective today) df.

Definition df_empty (df : list Row) : bool :=
  match df with [] => true | _ => false end.

(** The frame after the two [if] statements that follow its
    construction, [flag] being the value of the first operand of the
    first condition. *)
Definition final_frame (flag : bool) (today : date) (results : list MemoRow)
  : list Row :=
  let df := frame results in
  let df := if flag && negb (df_empty df) then drop_past_effective today df else df in
  if negb (df_empty df) then sorted_desc c_memo_number df else df.

(** [args.exclude-past-effective] is the expression
    [args.exclude - past - effective].  The namespace has no attribute
    [exclude] (the option's attribute is [exclude_past_effective]), so the
    attribute access raises before anything else is evaluated. *)
Definition exclude_minus_past_minus_effective (args : Namespace) : M bool :=
  raise (AttributeError "'Namespace' object has no attribute 'exclude'").

(** [max([r.memo_number for r in listing]) if listing else 0] *)
Definition max_num (listing : list MemoRow) : Z :=
  match listing with
  | [] => 0
  | r :: rest => fold_left Z.max (map memo_number rest) (memo_number r)
  end.

Definition send_slack_webhook (webhook_url text : string) : M unit :=
  post (Webhook webhook_url text).

Definition send_slack_sdk (sdk : bool) (token channel text : string)
                          (files : option (list string)) : M unit :=
  if sdk then post (ChatPost token channel text files)
  else warn "[warn] slack_sdk not installed; cannot upload via API.".

(** From the time stamp to the end of [main]. *)
Definition finish (args : Namespace) (r : run) (listing : list MemoRow)
                  (df : list Row) : M unit :=
  (let xlsx_path := path_join (out args) ("OCC_memos_" +:+ stamp r +:+ ".xlsx") in
   let csv_path := path_join (out args) ("OCC_memos_" +:+ stamp r +:+ ".csv") in
   write xlsx_path (Xlsx df) ;;;
   write csv_path (Csv df) ;;;
   write (path_join (out args) "latest.csv") (Csv df) ;;;
   let msg := render_message df in
   print msg ;;;
   try_except (write (state args) (Text (Py.str (max_num listing))))
              (fun e => warn ("[warn] cannot write state file: " +:+ exn_text e)) ;;;
   (if Py.truthy (slack_webhook args)
    then send_slack_webhook (Py.or_empty (slack_webhook args)) msg
    else ret tt) ;;;
   (if Py.truthy (slack_token args) && Py.truthy (slack_channel args)
    then send_slack_sdk (slack_sdk r) (Py.or_empty (slack_token args))
           (Py.or_empty (slack_channel args)) msg
           (if slack_upload_files args then Some [xlsx_path; csv_path] else None)
    else ret tt))%run.

(** [main], from the parsed listing page on.  The download of the page,
    [fetch_search_html], belongs to the network side and is not part of
    the model; as written it stops at its second request, whose argument
    [url] is bound nowhere. *)
Definition main (args : Namespace) (r : run) : M unit :=
  (makedirs (out args) ;;;
   let listing := parse_search_listing (page r) in
   fun w =>
     (picked <- lift (pick args (today r) w listing) ;;
      match picked with
      | [] => print "No new memos found on search page."
      | _ =>
          let results := enrich (include_text args) picked in
          flag <- exclude_minus_past_minus_effective args ;;
          finish args r listing (final_frame flag (today r) results)
      end) w)%run.

(* ================================================================ *)
(** * Vocabulary of the properties *)
(* ================================================================ *)

(** Strictly descending keys. *)
Definition desc {A : Type} (key : A -> Z) (a b : A) : Prop := key b < key a.

(** [r] is in [rows], and no row before it carries its number. *)
Definition first_with_number (rows : list MemoRow) (r : MemoRow) : Prop :=
  exists pre suf, rows = pre ++ r :: suf /\
    forall x, In x pre -> memo_number x <> memo_number r.

(** What the loop that fills [uniq] maintains, [seen] being the rows
    already visited. *)
Record uniq_inv (seen : list MemoRow) (uniq : list (Z * MemoRow)) : Prop := {
  inv_keys : List.NoDup (map fst uniq);
  inv_entry : forall k r, In (k, r) uniq ->
                k = memo_number r /\ first_with_number seen r;
  inv_all : forall x, In x seen -> In (memo_number x) (map fst uniq)
}.


(** The three steps of the effective-date cascade, in order. *)
Definition cascade : list regex :=
  [RE_EFFECTIVE_DATE_LINE; RE_DATE_FIELD; RE_MARKET_OPEN_LINE].

(** A step that matches and whose capture normalises. *)
Definition step_usable (re : regex) (text : string) : Prop :=
  exists g iso, search_group re text = Some g /\ _to_iso g = Some iso.

(** The cascade as a fall-through on failed normalisation would have it:
    no effective date only if no step is usable. *)
Definition absent_only_if_no_step_usable (text : string) : Prop :=
  f_effective_date (parse_pdf_fields text) = None ->
  forall re, In re cascade -> ~ step_usable re text.

(** The frame a run arrives at after the two [if] statements, [flag]
    being the value of the first operand of the first condition; no rows
    when the selection raises. *)
Definition output_rows (args : Namespace) (r : run) (w : world) (flag : bool)
  : list Row :=
  match pick args (today r) w (parse_search_listing (page r)) with
  | Ok picked => final_frame flag (today r) (enrich (include_text args) picked)
  | Raise _ => []
  end.

(** The text the include filter looks into, for a line of the frame. *)
Definition row_hay (row : Row) : string :=
  Py.lower (c_title row +:+ " " +:+ Py.or_empty (c_subject row)).


(** The state file after every run over a non-empty listing, as an
    unconditional rewrite would have it. *)
Definition state_rewritten_with_max (args : Namespace) (r : run) (w : world) : Prop :=
  parse_search_listing (page r) <> [] ->
  fs (snd (main args r w)) !! state args
  = Some (Text (Py.str (max_num (parse_search_listing (page r))))).

(** No character of the text is a blank. *)
Fixpoint no_blank (s : string) : bool :=
  match s with
  | EmptyString => true
  | String c s' => negb (Py.is_space c) && no_blank s'
  end.

(* ================================================================ *)
(** * Properties *)
(* ================================================================ *)

(** ** Strings *)

Lemma sapp_assoc (a b c : string) : (a +:+ b) +:+ c = a +:+ (b +:+ c).
Proof.
  induction a as [|x a IH]; [reflexivity|].
  change (String x ((a +:+ b) +:+ c) = String x (a +:+ (b +:+ c))).
  now f_equal.
Qed.

Lemma sapp_cons (x : ascii) (a b : string) :
  String x a +:+ b = String x (a +:+ b).
Proof. reflexivity. Qed.

Lemma sapp_nil_r (a : string) : a +:+ "" = a.
Proof.
  induction a as [|x a IH]; [reflexivity|].
  change (String x (a +:+ "") = String x a). now f_equal.
Qed.

Lemma slength_app (a b : string) :
  String.length (a +:+ b) = (String.length a + String.length b)%nat.
Proof.
  induction a as [|x a IH]; [reflexivity|].
  change (S (String.length (a +:+ b)) = S (String.length a + String.length b)).
  now f_equal.
Qed.

Lemma startswith_spec (p s : string) :
  Py.startswith p s = true <-> exists t, s = p +:+ t.
Proof.
  revert s. induction p as [|a p IH]; intros s; simpl.
  - split; [intros _; now exists s|reflexivity].
  - destruct s as [|b s].
    + split; [discriminate|intros (t & Ht); discriminate].
    + rewrite andb_true_iff, Ascii.eqb_eq, IH. split.
      * intros (-> & t & ->). now exists t.
      * intros (t & Ht). injection Ht as -> ->. split; [reflexivity|now exists t].
Qed.

(** [k in s] holds exactly when [s] is some text, [k], some text. *)
Lemma contains_spec (k s : string) :
  Py.contains k s = true <-> exists a b, s = a +:+ k +:+ b.
Proof.
  induction s as [|c s IH].
  - simpl. rewrite orb_false_r, startswith_spec. split.
    + intros (t & Ht). now exists "", t.
    + intros (a & b & Hab). destruct a; [now exists b|discriminate].
  - cbn [Py.contains]. rewrite orb_true_iff, IH, startswith_spec. split.
    + intros [(t & Ht)|(a & b & ->)]; [now exists "", t|now exists (String c a), b].
    + intros (a & b & Hab). destruct a as [|c' a].
      * left. now exists b.
      * right. injection Hab as _ ->. now exists a, b.
Qed.

(** ** The matcher *)

Lemma star_iter_ext {R : Type}
    (body : cursor -> (cursor -> option R) -> option R)
    (k1 k2 : cursor -> option R) (fuel : nat) (c : cursor) :
  (forall c0 h1 h2, (forall c', h1 c' = h2 c') -> body c0 h1 = body c0 h2) ->
  (forall c', k1 c' = k2 c') ->
  star_iter body k1 fuel c = star_iter body k2 fuel c.
Proof.
  intros Hbody Hk. revert c. induction fuel as [|fuel IH]; intros c; simpl.
  - apply Hk.
  - rewrite (Hk c).
    erewrite Hbody; [reflexivity|].
    intros c'. simpl. destruct (Nat.ltb _ _); [apply IH|reflexivity].
Qed.

(** The result depends on the continuation through its values only. *)
Lemma run_ext {R : Type} (r : regex) (c : cursor) (k1 k2 : cursor -> option R) :
  (forall c', k1 c' = k2 c') -> Re.run r c k1 = Re.run r c k2.
Proof.
  revert c k1 k2.
  induction r as [|p|r1 IH1 r2 IH2|r1 IH1 r2 IH2|r1 IH1|r1 IH1| | |];
    intros c k1 k2 Hk; simpl.
  - apply Hk.
  - destruct (rest c) as [|a s]; [reflexivity|].
    destruct (p a); [apply Hk|reflexivity].
  - apply IH1. intros c'. now apply IH2.
  - rewrite (IH1 c k1 k2 Hk), (IH2 c k1 k2 Hk). reflexivity.
  - apply (star_iter_ext (Re.run r1) k1 k2 (S (String.length (rest c))) c);
      [|exact Hk].
    intros c0 h1 h2. apply IH1.
  - apply IH1. intros c'. apply Hk.
  - destruct (before c) as [a|]; [|apply Hk].
    destruct (Py.is_newline a); [apply Hk|reflexivity].
  - destruct (rest c) as [|a s]; [apply Hk|].
    destruct (Py.is_newline a); [apply Hk|reflexivity].
  - destruct (xorb _ _); [apply Hk|reflexivity].
Qed.

(** Fuel beyond the length of the text left changes nothing: the
    repetition never stops for lack of it. *)
Lemma star_iter_fuel {R : Type} (r : regex) (k : cursor -> option R)
                     (n m : nat) (c : cursor) :
  (String.length (rest c) < n)%nat ->
  (String.length (rest c) < m)%nat ->
  star_iter (Re.run r) k n c = star_iter (Re.run r) k m c.
Proof.
  revert m c. induction n as [|n IH]; intros m c Hn Hm; [lia|].
  destruct m as [|m]; [lia|]. simpl.
  erewrite run_ext; [reflexivity|].
  intros c'. simpl.
  destruct (Nat.ltb_spec (String.length (rest c')) (String.length (rest c)));
    [apply IH; lia|reflexivity].
Qed.

(** ** Sorting *)

Lemma insert_desc_In {A : Type} (key : A -> Z) (x y : A) (l : list A) :
  In y (insert_desc key x l) <-> y = x \/ In y l.
Proof.
  induction l as [|z l IH]; simpl.
  - intuition.
  - destruct (Z.ltb (key x) (key z)); simpl; rewrite ?IH; intuition.
Qed.

Lemma sorted_desc_In {A : Type} (key : A -> Z) (y : A) (l : list A) :
  In y (sorted_desc key l) <-> In y l.
Proof.
  induction l as [|x l IH]; simpl; [reflexivity|].
  rewrite insert_desc_In, IH. intuition.
Qed.

Lemma insert_desc_strict {A : Type} (key : A -> Z) (x : A) (l : list A) :
  StronglySorted (desc key) l ->
  (forall y, In y l -> key y <> key x) ->
  StronglySorted (desc key) (insert_desc key x l).
Proof.
  induction 1 as [|z l Hs IH Hz]; intros Hne; simpl.
  - repeat constructor.
  - destruct (Z.ltb_spec (key x) (key z)) as [Hlt|Hge].
    + constructor.
      * apply IH. intros y Hy. apply Hne. now right.
      * apply List.Forall_forall. intros y Hy.
        apply insert_desc_In in Hy as [->|Hy]; [exact Hlt|].
        rewrite List.Forall_forall in Hz. now apply Hz.
    + assert (key z <> key x) by (apply Hne; now left).
      constructor; [now constructor|].
      constructor; [unfold desc; lia|].
      rewrite List.Forall_forall in Hz |- *. intros y Hy.
      specialize (Hz y Hy). unfold desc in *. lia.
Qed.

Lemma sorted_desc_strict {A : Type} (key : A -> Z) (l : list A) :
  List.NoDup (map key l) -> StronglySorted (desc key) (sorted_desc key l).
Proof.
  induction l as [|x l IH]; simpl; intros Hnd.
  - constructor.
  - inversion Hnd as [|? ? Hx Hl]; subst.
    apply insert_desc_strict; [now apply IH|].
    intros y Hy Heq. apply Hx. rewrite <- Heq.
    apply in_map. now apply sorted_desc_In in Hy.
Qed.

Lemma strict_desc_NoDup {A : Type} (key : A -> Z) (l : list A) :
  StronglySorted (desc key) l -> List.NoDup (map key l).
Proof.
  induction 1 as [|x l Hs IH Hx]; simpl; constructor; [|exact IH].
  intros Hin. apply in_map_iff in Hin as (y & Heq & Hy).
  rewrite List.Forall_forall in Hx. specialize (Hx y Hy). unfold desc in Hx. lia.
Qed.

(** ** The dict [uniq] *)

Lemma has_key_spec (k : Z) (uniq : list (Z * MemoRow)) :
  has_key k uniq = true <-> In k (map fst uniq).
Proof.
  unfold has_key. rewrite existsb_exists, in_map_iff. split.
  - intros (kv & Hin & Heq). exists kv. split; [lia|exact Hin].
  - intros (kv & Heq & Hin). exists kv. split; [exact Hin|lia].
Qed.

Lemma first_with_number_app (seen more : list MemoRow) (r : MemoRow) :
  first_with_number seen r -> first_with_number (seen ++ more) r.
Proof.
  intros (pre & suf & -> & Hpre). exists pre, (suf ++ more). split; [|exact Hpre].
  now rewrite <- app_assoc.
Qed.

Lemma uniq_add_inv (seen : list MemoRow) (uniq : list (Z * MemoRow)) (r : MemoRow) :
  uniq_inv seen uniq -> uniq_inv (seen ++ [r]) (uniq_add uniq r).
Proof.
  intros [Hk He Ha]. unfold uniq_add.
  destruct (has_key (memo_number r) uniq) eqn:Hhas.
  - apply has_key_spec in Hhas. split; [exact Hk| |].
    + intros k x Hin. destruct (He k x Hin) as [-> Hf].
      split; [reflexivity|now apply first_with_number_app].
    + intros x Hx. apply in_app_or in Hx as [Hx|[->|[]]]; [now apply Ha|exact Hhas].
  - assert (Hnot : ~ In (memo_number r) (map fst uniq)).
    { rewrite <- has_key_spec, Hhas. discriminate. }
    split.
    + rewrite map_app. simpl. apply List.NoDup_app; [exact Hk| |].
      * constructor; [intros []|constructor].
      * intros k Hin [<-|[]]. now apply Hnot.
    + intros k x Hin. apply in_app_or in Hin as [Hin|[Heq|[]]].
      * destruct (He k x Hin) as [-> Hf].
        split; [reflexivity|now apply first_with_number_app].
      * injection Heq as <- <-. split; [reflexivity|].
        exists seen, []. split; [reflexivity|].
        intros x Hx Heq. apply Hnot. rewrite <- Heq. now apply Ha.
    + intros x Hx. rewrite map_app. apply in_or_app.
      apply in_app_or in Hx as [Hx|[->|[]]]; [left; now apply Ha|right; now left].
Qed.

Lemma fold_uniq_inv (rows seen : list MemoRow) (uniq : list (Z * MemoRow)) :
  uniq_inv seen uniq -> uniq_inv (seen ++ rows) (fold_left uniq_add rows uniq).
Proof.
  revert seen uniq. induction rows as [|r rows IH]; intros seen uniq Hinv; simpl.
  - now rewrite app_nil_r.
  - replace (seen ++ r :: rows) with ((seen ++ [r]) ++ rows)
      by (now rewrite <- app_assoc).
    apply IH. now apply uniq_add_inv.
Qed.

Lemma uniq_of_inv (rows : list MemoRow) : uniq_inv rows (uniq_of rows).
Proof.
  apply (fold_uniq_inv rows [] []). split.
  - constructor.
  - intros k r [].
  - intros x [].
Qed.

Lemma uniq_values_keys (rows : list MemoRow) :
  map memo_number (map snd (uniq_of rows)) = map fst (uniq_of rows).
Proof.
  destruct (uniq_of_inv rows) as [_ He _].
  induction (uniq_of rows) as [|[k r] l IH]; simpl; [reflexivity|].
  f_equal.
  - symmetry. apply (He k r). now left.
  - apply IH. intros k' r' Hin. apply He. now right.
Qed.

(** C6.  For every parsed listing page, [parse_search_listing] returns
    rows whose numbers are pairwise distinct and strictly descending;
    every row returned is the first row of the raw scan that carries its
    number, and every number of the raw scan is returned. *)
Theorem parse_search_listing_unique_descending (soup : list node) :
  List.NoDup (map memo_number (parse_search_listing soup))
  /\ StronglySorted (desc memo_number) (parse_search_listing soup)
  /\ (forall r, In r (parse_search_listing soup) ->
        first_with_number (listing_rows soup) r)
  /\ (forall x, In x (listing_rows soup) ->
        exists r, In r (parse_search_listing soup)
                  /\ memo_number r = memo_number x).
Proof.
  unfold parse_search_listing.
  pose proof (uniq_of_inv (listing_rows soup)) as [Hk He Ha].
  assert (Hs : StronglySorted (desc memo_number)
                 (sorted_desc memo_number (map snd (uniq_of (listing_rows soup))))).
  { apply sorted_desc_strict. now rewrite uniq_values_keys. }
  split; [now apply strict_desc_NoDup|]. split; [exact Hs|]. split.
  - intros r Hr. apply sorted_desc_In, in_map_iff in Hr as ([k r'] & <- & Hin).
    apply (He k r' Hin).
  - intros x Hx. specialize (Ha x Hx).
    rewrite <- uniq_values_keys in Ha.
    apply in_map_iff in Ha as (r & Heq & Hr).
    exists r. split; [now apply sorted_desc_In|exact Heq].
Qed.

(** ** The lookback of the listing parser *)








(** ** The event classifier *)

Lemma lower_app (a b : string) :
  Py.lower (a +:+ b) = Py.lower a +:+ Py.lower b.
Proof. induction a as [|c a IH]; simpl; [reflexivity|now rewrite IH]. Qed.

Lemma first_label_none (table : list (string * list string)) (text : string) :
  (forall label keys k, In (label, keys) table -> In k keys ->
                        Py.contains k text = false) ->
  first_label table text = None.
Proof.
  induction table as [|[label keys] table IH]; intros Hno; simpl; [reflexivity|].
  replace (existsb (fun k => Py.contains k text) keys) with false.
  - apply IH. intros l ks k Hin. apply (Hno l ks k). now right.
  - symmetry. apply not_true_is_false. intros Hex.
    apply existsb_exists in Hex as (k & Hk & Hc).
    rewrite (Hno label keys k (or_introl eq_refl) Hk) in Hc. discriminate.
Qed.

(** A text with "tender offer" and no key of an earlier entry is a
    tender. *)
Lemma classify_text_tender (text : string) :
  Py.contains "tender offer" text = true ->
  (forall label keys k, In (label, keys) (firstn 4 EVENT_KEYWORDS) ->
                        In k keys -> Py.contains k text = false) ->
  classify_text text = Some "tender".
Proof.
  intros Ht Hno. unfold classify_text.
  change EVENT_KEYWORDS
    with (firstn 4 EVENT_KEYWORDS ++ skipn 4 EVENT_KEYWORDS).
  assert (Hsplit : forall pre post,
             first_label pre text = None ->
             first_label (pre ++ post) text = first_label post text).
  { induction pre as [|[l ks] pre IH]; simpl; intros post Hn; [reflexivity|].
    destruct (existsb _ ks); [discriminate|now apply IH]. }
  rewrite Hsplit by (now apply first_label_none).
  simpl. now rewrite Ht.
Qed.

(** A text with no key of the taxonomy, not both "reverse" and "split",
    no "stock split" and no ratio has no category. *)
Lemma classify_text_absent (text : string) :
  (forall label keys k, In (label, keys) EVENT_KEYWORDS -> In k keys ->
                        Py.contains k text = false) ->
  Py.contains "reverse" text && Py.contains "split" text = false ->
  Py.contains "stock split" text = false ->
  found RE_RATIO text = false ->
  classify_text text = None.
Proof.
  intros Hno Hrs Hss Hr. unfold classify_text.
  rewrite first_label_none by exact Hno.
  now rewrite Hrs, Hss, Hr.
Qed.

(** C1.  A title whose lower-case form is "notice of reverse stock split —
    xyz", with an empty subject, is classified "split": the key
    "stock split" of the second taxonomy entry occurs in it, and the key
    "reverse split" of the first does not. *)
Theorem reverse_stock_split_title_is_split (title : string) (subject : option string) :
  Py.lower title = "notice of reverse stock split — xyz" ->
  Py.or_empty subject = "" ->
  classify_event title subject = Some "split".
Proof.
  intros Htitle Hsubject. unfold classify_event.
  rewrite Hsubject, lower_app, Htitle. reflexivity.
Qed.

(** ** The effective-date cascade *)

(** C2 (amended).  The first pattern of the cascade that matches decides
    the effective date: the result is [_to_iso] of its capture, also when
    that is absent, and a later pattern is consulted only when every
    earlier one fails to match. *)
Theorem effective_date_first_match_decides (text : string) :
  let eff := f_effective_date (parse_pdf_fields text) in
  (forall g, search_group RE_EFFECTIVE_DATE_LINE text = Some g -> eff = _to_iso g)
  /\ (search_group RE_EFFECTIVE_DATE_LINE text = None ->
      forall g, search_group RE_DATE_FIELD text = Some g -> eff = _to_iso g)
  /\ (search_group RE_EFFECTIVE_DATE_LINE text = None ->
      search_group RE_DATE_FIELD text = None ->
      forall g, search_group RE_MARKET_OPEN_LINE text = Some g -> eff = _to_iso g)
  /\ (search_group RE_EFFECTIVE_DATE_LINE text = None ->
      search_group RE_DATE_FIELD text = None ->
      search_group RE_MARKET_OPEN_LINE text = None -> eff = None).
Proof.
  simpl. unfold extract_effective_date.
  destruct (search_group RE_EFFECTIVE_DATE_LINE text) as [g1|];
    destruct (search_group RE_DATE_FIELD text) as [g2|];
    destruct (search_group RE_MARKET_OPEN_LINE text) as [g3|];
    repeat split; intros; congruence.
Qed.

(** ** Selection, enrichment and the frame *)

Lemma select_watermark_In (last_n : Z) (listing : list MemoRow) (r : MemoRow) :
  In r (select_watermark last_n listing) <-> In r listing /\ last_n < memo_number r.
Proof.
  unfold select_watermark. rewrite filter_In. now rewrite Z.ltb_lt.
Qed.

Lemma enrich_one_keeps (inc : string) (p m : MemoRow) :
  enrich_one inc p = Some m ->
  memo_number m = memo_number p /\ title m = title p /\ url m = url p.
Proof.
  unfold enrich_one. destruct (fetch_pdf_text (url p)) as [e|text].
  - intros [= <-]. now repeat split.
  - destruct (_ && _); [discriminate|]. intros [= <-]. now repeat split.
Qed.

Lemma enrich_In (inc : string) (picked : list MemoRow) (m : MemoRow) :
  In m (enrich inc picked) <-> exists p, In p picked /\ enrich_one inc p = Some m.
Proof.
  unfold enrich. rewrite <- list_elem_of_In, list_elem_of_omap.
  split; intros (p & Hp & He); exists p; split; try exact He;
    now apply list_elem_of_In.
Qed.

Lemma final_frame_In (flag : bool) (today : date) (results : list MemoRow) (row : Row) :
  In row (final_frame flag today results) ->
  exists m, In m results /\ row = row_of m.
Proof.
  unfold final_frame, frame, drop_past_effective. intros Hin.
  assert (Hdf : In row (map row_of results)).
  { destruct (flag && negb (df_empty (map row_of results))).
    - destruct (negb (df_empty _)) in Hin;
        [apply sorted_desc_In in Hin|]; now apply filter_In in Hin.
    - destruct (negb (df_empty _)) in Hin;
        [now apply sorted_desc_In in Hin|exact Hin]. }
  apply in_map_iff in Hdf as (m & <- & Hm). now exists m.
Qed.


Lemma read_watermark_absent (path : string) (w : world) :
  fs w !! path = None -> read_watermark path w = 0.
Proof. unfold read_watermark. now intros ->. Qed.

Lemma read_watermark_unreadable (path : string) (w : world) (f : file) :
  fs w !! path = Some f ->
  (forall s, f = Text s -> Py.int (Py.strip s) = None) ->
  read_watermark path w = 0.
Proof.
  unfold read_watermark. intros -> Hbad.
  destruct f as [df|df|s]; try reflexivity.
  now rewrite (Hbad s eq_refl).
Qed.

(** C3.  In watermark mode every line of the output has a number strictly
    above the watermark read at the start of the run; that watermark is 0
    when the state file is absent and when it does not hold an integer. *)
Theorem watermark_mode_output_above_watermark
    (args : Namespace) (r : run) (w : world) (flag : bool) (row : Row) :
  since_posted_days args = None ->
  In row (output_rows args r w flag) ->
  read_watermark (state args) w < c_memo_number row
  /\ (fs w !! state args = None -> read_watermark (state args) w = 0)
  /\ (forall f, fs w !! state args = Some f ->
                (forall s, f = Text s -> Py.int (Py.strip s) = None) ->
                read_watermark (state args) w = 0).
Proof.
  intros Hmode Hin. split; [|split].
  - unfold output_rows, pick in Hin. rewrite Hmode in Hin.
    apply final_frame_In in Hin as (m & Hm & ->).
    apply enrich_In in Hm as (p & Hp & He).
    apply select_watermark_In in Hp as [_ Hlt].
    apply enrich_one_keeps in He as [Hnum _]. simpl. now rewrite Hnum.
  - apply read_watermark_absent.
  - apply read_watermark_unreadable.
Qed.

(** ** The include filter and failed fetches *)

Lemma row_hay_of (m : MemoRow) : row_hay (row_of m) = hay m.
Proof. reflexivity. Qed.




(** ** The run as a whole *)

Lemma pick_reads_files_only (args : Namespace) (today : date) (w1 w2 : world)
                            (listing : list MemoRow) :
  fs w1 = fs w2 -> pick args today w1 listing = pick args today w2 listing.
Proof. intros Hfs. unfold pick, read_watermark. now rewrite Hfs. Qed.

(** The world once the output directory is ensured. *)
Lemma main_no_pick (args : Namespace) (r : run) (w : world) :
  pick args (today r) w (parse_search_listing (page r)) = Ok [] ->
  main args r w
  = (Ok tt, mkWorld (fs w) ({[out args]} ∪ dirs w)
               (stdout w ++ ["No new memos found on search page."])
               (stderr w) (posted w)).
Proof.
  intros Hpick. unfold main, bind, makedirs, lift. simpl.
  rewrite (pick_reads_files_only args (today r) _ w) by reflexivity.
  now rewrite Hpick.
Qed.

(** With a candidate picked the run stops at the first condition after
    the frame is built. *)
Lemma main_once_picked (args : Namespace) (r : run) (w : world)
                       (p : MemoRow) (ps : list MemoRow) :
  pick args (today r) w (parse_search_listing (page r)) = Ok (p :: ps) ->
  main args r w
  = (Raise (AttributeError "'Namespace' object has no attribute 'exclude'"),
     mkWorld (fs w) ({[out args]} ∪ dirs w) (stdout w) (stderr w) (posted w)).
Proof.
  intros Hpick. unfold main, bind, makedirs, lift. simpl.
  rewrite (pick_reads_files_only args (today r) _ w) by reflexivity.
  now rewrite Hpick.
Qed.

Lemma max_num_fold (l : list Z) (a : Z) :
  a <= fold_left Z.max l a
  /\ (forall x, In x l -> x <= fold_left Z.max l a)
  /\ In (fold_left Z.max l a) (a :: l).
Proof.
  revert a. induction l as [|b l IH]; intros a; simpl.
  - split; [lia|]. split; [intros x []|now left].
  - destruct (IH (Z.max a b)) as (Hge & Hall & Hin). split; [lia|]. split.
    + intros x [<-|Hx]; [lia|now apply Hall].
    + destruct Hin as [Heq|Hin]; [|now right; right].
      rewrite <- Heq. destruct (Z.max_spec a b) as [[_ ->]|[_ ->]]; auto.
Qed.

Lemma max_num_spec (listing : list MemoRow) :
  (forall x, In x listing -> memo_number x <= max_num listing)
  /\ (listing <> [] -> In (max_num listing) (map memo_number listing)).
Proof.
  destruct listing as [|r listing]; simpl.
  - split; [intros x []|congruence].
  - destruct (max_num_fold (map memo_number listing) (memo_number r))
      as (Hge & Hall & Hin).
    split; [|intros _; exact Hin].
    intros x [<-|Hx]; [exact Hge|]. apply Hall. now apply in_map.
Qed.

Lemma finish_writes_state (args : Namespace) (r : run) (listing : list MemoRow)
                          (df : list Row) (w w' : world) :
  finish args r listing df w = (Ok tt, w') ->
  writable (state args) = true ->
  fs w' !! state args = Some (Text (Py.str (max_num listing))).
Proof.
  unfold finish, bind, write, try_except, print, send_slack_webhook,
    send_slack_sdk, post, warn, ret.
  intros Hrun Hw.
  repeat match type of Hrun with
         | context [if writable ?p then _ else _] =>
             destruct (writable p) eqn:?; [|discriminate]
         end.
  cbn [fs] in Hrun.
  destruct (Py.truthy (slack_webhook args));
    destruct (Py.truthy (slack_token args) && Py.truthy (slack_channel args));
    destruct (slack_sdk r);
    injection Hrun as <-; cbn [fs]; apply lookup_insert_eq.
Qed.


(** C4 (amended).  The state file is rewritten by the last stage of the
    run only: a run whose selection picks nothing returns before it and
    leaves the state file as it was.  When that stage completes and the
    state file can be written, the file holds the largest number of the
    whole listing, whatever was selected or kept. *)
Theorem state_rewritten_by_last_stage_only
    (args : Namespace) (r : run) (w : world) (df : list Row) :
  let listing := parse_search_listing (page r) in
  (pick args (today r) w listing = Ok [] ->
   fs (snd (main args r w)) !! state args = fs w !! state args)
  /\ (forall w0 w', finish args r listing df w0 = (Ok tt, w') ->
                    writable (state args) = true ->
                    fs w' !! state args = Some (Text (Py.str (max_num listing))))
  /\ (forall x, In x listing -> memo_number x <= max_num listing)
  /\ (listing <> [] -> In (max_num listing) (map memo_number listing)).
Proof.
  intros listing. split; [|split].
  - intros Hpick. now rewrite (main_no_pick args r w Hpick).
  - intros w0 w'. apply finish_writes_state.
  - apply max_num_spec.
Qed.

(* ================================================================ *)
(** * Further properties of the classifier *)
(* ================================================================ *)

(** When the loop over the taxonomy finds nothing the text does not hold
    "stock split", so the first operand of the last test never decides:
    after the loop the answer is "reverse split" when both words occur,
    else "split" exactly when the ratio pattern is found. *)
Theorem after_taxonomy_only_ratio_gives_split (text : string) :
  first_label EVENT_KEYWORDS text = None ->
  Py.contains "stock split" text = false
  /\ classify_text text
     = (if Py.contains "reverse" text && Py.contains "split" text
        then Some "reverse split"
        else if found RE_RATIO text then Some "split" else None).
Proof.
  intros Hnone.
  assert (Hss : Py.contains "stock split" text = false).
  { unfold EVENT_KEYWORDS in Hnone. cbn [first_label existsb] in Hnone.
    destruct (Py.contains "reverse split" text); [discriminate|].
    destruct (Py.contains "stock split" text); [discriminate|reflexivity]. }
  split; [exact Hss|].
  unfold classify_text. now rewrite Hnone, Hss.
Qed.

(* ================================================================ *)
(** * Further properties of the selection and of the frame *)
(* ================================================================ *)

Lemma strict_desc_filter {A : Type} (key : A -> Z) (f : A -> bool) (l : list A) :
  StronglySorted (desc key) l -> StronglySorted (desc key) (List.filter f l).
Proof.
  induction 1 as [|x l Hs IH Hx]; simpl; [constructor|].
  destruct (f x); [|exact IH]. constructor; [exact IH|].
  rewrite List.Forall_forall in Hx |- *. intros y Hy.
  apply filter_In in Hy as [Hy _]. now apply Hx.
Qed.

Lemma strict_desc_omap {A B : Type} (ka : A -> Z) (kb : B -> Z)
                       (f : A -> option B) (l : list A) :
  (forall x y, f x = Some y -> kb y = ka x) ->
  StronglySorted (desc ka) l -> StronglySorted (desc kb) (omap f l).
Proof.
  intros Hkey. induction 1 as [|x l Hs IH Hx]; simpl; [constructor|].
  destruct (f x) as [y|] eqn:Hfx; [|exact IH]. constructor; [exact IH|].
  rewrite List.Forall_forall in Hx |- *. intros z Hz.
  apply list_elem_of_In, list_elem_of_omap in Hz as (x' & Hx' & Hfx').
  apply list_elem_of_In in Hx'. unfold desc.
  rewrite (Hkey _ _ Hfx), (Hkey _ _ Hfx'). now apply Hx.
Qed.

Lemma strict_desc_map {A B : Type} (ka : A -> Z) (kb : B -> Z)
                      (f : A -> B) (l : list A) :
  (forall x, kb (f x) = ka x) ->
  StronglySorted (desc ka) l -> StronglySorted (desc kb) (map f l).
Proof.
  intros Hkey. induction 1 as [|x l Hs IH Hx]; simpl; constructor; [exact IH|].
  rewrite List.Forall_forall in Hx |- *. intros z Hz.
  apply in_map_iff in Hz as (x' & <- & Hx'). unfold desc.
  rewrite !Hkey. now apply Hx.
Qed.

(** Sorting a list that is already strictly descending changes nothing. *)
Lemma sorted_desc_id {A : Type} (key : A -> Z) (l : list A) :
  StronglySorted (desc key) l -> sorted_desc key l = l.
Proof.
  induction 1 as [|x l Hs IH Hx]; simpl; [reflexivity|].
  fold (sorted_desc key l). rewrite IH.
  destruct l as [|y l]; [reflexivity|]. simpl.
  inversion Hx as [|? ? Hy _]; subst. unfold desc in Hy.
  destruct (Z.ltb_spec (key x) (key y)); [lia|reflexivity].
Qed.

Lemma parse_search_listing_sorted (soup : list node) :
  StronglySorted (desc memo_number) (parse_search_listing soup).
Proof.
  unfold parse_search_listing. apply sorted_desc_strict.
  rewrite uniq_values_keys. apply (uniq_of_inv (listing_rows soup)).
Qed.

Lemma pick_is_filter (args : Namespace) (today : date) (w : world)
                     (listing picked : list MemoRow) :
  pick args today w listing = Ok picked ->
  exists f, picked = List.filter f listing.
Proof.
  unfold pick, select_lookback, select_watermark.
  destruct (since_posted_days args) as [days|].
  - destruct (_ && _); [|discriminate]. intros [= <-]. now eexists.
  - intros [= <-]. now eexists.
Qed.

Lemma frame_before_sort_sorted (args : Namespace) (r : run) (w : world)
                               (flag : bool) (picked : list MemoRow) :
  pick args (today r) w (parse_search_listing (page r)) = Ok picked ->
  StronglySorted (desc c_memo_number)
    (if flag && negb (df_empty (frame (enrich (include_text args) picked)))
     then drop_past_effective (today r) (frame (enrich (include_text args) picked))
     else frame (enrich (include_text args) picked)).
Proof.
  intros Hpick. destruct (pick_is_filter _ _ _ _ _ Hpick) as (f & ->).
  assert (Hframe : StronglySorted (desc c_memo_number)
            (frame (enrich (include_text args)
                      (List.filter f (parse_search_listing (page r)))))).
  { unfold frame. apply (strict_desc_map memo_number); [reflexivity|].
    unfold enrich. apply (strict_desc_omap memo_number).
    - intros x y Hxy. now apply enrich_one_keeps in Hxy.
    - apply strict_desc_filter, parse_search_listing_sorted. }
  destruct (flag && _); [|exact Hframe].
  now apply strict_desc_filter.
Qed.

(** The output of a run is strictly descending by number, so no number
    occurs twice; the frame reaches [sort_values] already in that order, so
    that the sort changes nothing. *)
Theorem output_rows_strictly_descending
    (args : Namespace) (r : run) (w : world) (flag : bool) :
  StronglySorted (desc c_memo_number) (output_rows args r w flag)
  /\ List.NoDup (map c_memo_number (output_rows args r w flag))
  /\ (forall picked,
        pick args (today r) w (parse_search_listing (page r)) = Ok picked ->
        output_rows args r w flag
        = (if flag && negb (df_empty (frame (enrich (include_text args) picked)))
           then drop_past_effective (today r) (frame (enrich (include_text args) picked))
           else frame (enrich (include_text args) picked))).
Proof.
  assert (Hout : forall picked,
            pick args (today r) w (parse_search_listing (page r)) = Ok picked ->
            output_rows args r w flag
            = (if flag && negb (df_empty (frame (enrich (include_text args) picked)))
               then drop_past_effective (today r)
                      (frame (enrich (include_text args) picked))
               else frame (enrich (include_text args) picked))).
  { intros picked Hpick. unfold output_rows. rewrite Hpick. unfold final_frame.
    pose proof (frame_before_sort_sorted args r w flag picked Hpick) as Hs.
    set (df := if flag && negb (df_empty (frame (enrich (include_text args) picked)))
               then drop_past_effective (today r)
                      (frame (enrich (include_text args) picked))
               else frame (enrich (include_text args) picked)) in *.
    destruct (negb (df_empty df)); [now apply sorted_desc_id|reflexivity]. }
  assert (Hs : StronglySorted (desc c_memo_number) (output_rows args r w flag)).
  { destruct (pick args (today r) w (parse_search_listing (page r)))
      as [picked|e] eqn:Hpick.
    - rewrite (Hout picked eq_refl).
      exact (frame_before_sort_sorted args r w flag picked Hpick).
    - unfold output_rows. rewrite Hpick. constructor. }
  split; [exact Hs|]. split; [now apply strict_desc_NoDup|exact Hout].
Qed.

(** ** The include filter at its edges *)

Lemma enrich_one_no_filter (p : MemoRow) :
  exists m, enrich_one "" p = Some m /\ memo_number m = memo_number p.
Proof.
  unfold enrich_one. destruct (fetch_pdf_text (url p)) as [e|text]; simpl;
    eexists; split; reflexivity.
Qed.

(** The include text is empty exactly when no keyword is given or the
    only keyword is the empty one; then no candidate is dropped: the results
    carry the numbers of the picked candidates, one for one. *)
Theorem empty_include_keeps_every_candidate (args : Namespace) (picked : list MemoRow) :
  (include_text args = "" <-> include args = [] \/ include args = [""])
  /\ (include_text args = "" ->
      map memo_number (enrich (include_text args) picked) = map memo_number picked).
Proof.
  split.
  - unfold include_text. split.
    + destruct (include args) as [|kw [|kw' l]]; [now left| |].
      * simpl. destruct kw; [now right|discriminate].
      * cbn [Py.join]. rewrite lower_app. destruct kw; discriminate.
    + now intros [->| ->].
  - intros ->. unfold enrich.
    induction picked as [|p picked IH]; [reflexivity|].
    destruct (enrich_one_no_filter p) as (m & Hp & Hm).
    change (omap (enrich_one "") (p :: picked))
      with (match enrich_one "" p with
            | Some y => y :: omap (enrich_one "") picked
            | None => omap (enrich_one "") picked
            end).
    rewrite Hp. cbn [map]. now rewrite Hm, IH.
Qed.

(* ================================================================ *)
(** * The state file read back *)
(* ================================================================ *)

Lemma digit_not_space (c : ascii) : Py.is_digit c = true -> Py.is_space c = false.
Proof.
  unfold Py.is_digit, Py.is_space, Py.between.
  rewrite andb_true_iff, !Nat.leb_le. intros [H1 H2].
  apply not_true_is_false.
  rewrite !orb_true_iff, !andb_true_iff, !Nat.leb_le, Nat.eqb_eq. lia.
Qed.

Lemma digit_not_sign (c : ascii) :
  Py.is_digit c = true ->
  Nat.eqb (Py.code c) 45 = false /\ Nat.eqb (Py.code c) 43 = false
  /\ Nat.eqb (Py.code c) 95 = false.
Proof.
  unfold Py.is_digit, Py.between.
  rewrite andb_true_iff, !Nat.leb_le, !Nat.eqb_neq. lia.
Qed.

Lemma all_digits_no_blank (s : string) :
  Date.all_digits s = true -> no_blank s = true.
Proof.
  induction s as [|c s IH]; simpl; [reflexivity|].
  rewrite andb_true_iff. intros [Hc Hs].
  now rewrite (digit_not_space c Hc), IH.
Qed.

Lemma lstrip_no_blank (s : string) : no_blank s = true -> Py.lstrip s = s.
Proof.
  destruct s as [|c s]; simpl; [reflexivity|].
  rewrite andb_true_iff, negb_true_iff. now intros [-> _].
Qed.

Lemma rstrip_no_blank (s : string) : no_blank s = true -> Py.rstrip s = s.
Proof.
  induction s as [|c s IH]; simpl; [reflexivity|].
  rewrite andb_true_iff, negb_true_iff. intros [Hc Hs].
  rewrite (IH Hs). destruct s; [now rewrite Hc|reflexivity].
Qed.

Lemma strip_no_blank (s : string) : no_blank s = true -> Py.strip s = s.
Proof.
  intros H. unfold Py.strip. rewrite (lstrip_no_blank s H).
  now apply rstrip_no_blank.
Qed.

Lemma digit_groups_digits (s : string) :
  Date.all_digits s = true -> Py.digit_groups true s = true.
Proof.
  induction s as [|c s IH]; simpl; [reflexivity|].
  rewrite andb_true_iff. intros [-> Hs]. now apply IH.
Qed.

Lemma drop_underscores_digits (s : string) :
  Date.all_digits s = true -> Py.drop_underscores s = s.
Proof.
  induction s as [|c s IH]; simpl; [reflexivity|].
  rewrite andb_true_iff. intros [Hc Hs].
  destruct (digit_not_sign c Hc) as (_ & _ & ->). now rewrite (IH Hs).
Qed.

Lemma int_unsigned_digits (c : ascii) (s : string) :
  Date.all_digits (String c s) = true ->
  Py.int_unsigned (String c s) = Some (Py.int_of_digits (String c s)).
Proof.
  intros H. unfold Py.int_unsigned.
  rewrite (drop_underscores_digits _ H).
  simpl in H |- *. apply andb_true_iff in H as [-> Hs].
  now rewrite (digit_groups_digits s Hs).
Qed.

Lemma all_digits_app (a b : string) :
  Date.all_digits (a +:+ b) = Date.all_digits a && Date.all_digits b.
Proof.
  induction a as [|c a IH]; [reflexivity|].
  rewrite sapp_cons. simpl. now rewrite IH, andb_assoc.
Qed.

Lemma int_acc_app (a b : string) (acc : Z) :
  Py.int_acc acc (a +:+ b) = Py.int_acc (Py.int_acc acc a) b.
Proof.
  revert acc. induction a as [|c a IH]; intros acc; [reflexivity|].
  rewrite sapp_cons. simpl. apply IH.
Qed.

Lemma digit_char_value (d : N) :
  (d < 10)%N ->
  Py.is_digit (pretty_N_char d) = true
  /\ Z.of_nat (Py.code (pretty_N_char d) - 48) = Z.of_N d.
Proof.
  intros Hd.
  assert (d = 0 \/ d = 1 \/ d = 2 \/ d = 3 \/ d = 4 \/ d = 5 \/ d = 6
          \/ d = 7 \/ d = 8 \/ d = 9)%N as Hcases by lia.
  repeat (destruct Hcases as [->|Hcases]; [now vm_compute|]). subst. now vm_compute.
Qed.

(** The digits of [x] go in front of what is already there. *)
Lemma pretty_N_go_app (x : N) (s : string) :
  pretty_N_go x s = pretty_N_go x "" +:+ s.
Proof.
  revert s. induction (N.lt_wf_0 x) as [x _ IH]. intros s.
  destruct (N.eq_dec x 0%N) as [->|Hx]; [now rewrite !pretty_N_go_0|].
  rewrite !(pretty_N_go_step x) by lia.
  assert (Hlt : (x / 10 < x)%N) by (apply N.div_lt; lia).
  rewrite (IH _ Hlt (String _ s)), (IH _ Hlt (String _ "")).
  now rewrite sapp_assoc.
Qed.

Lemma pretty_N_go_digits (x : N) :
  Date.all_digits (pretty_N_go x "") = true
  /\ Py.int_of_digits (pretty_N_go x "") = Z.of_N x
  /\ (x <> 0%N -> pretty_N_go x "" <> "").
Proof.
  induction (N.lt_wf_0 x) as [x _ IH].
  destruct (N.eq_dec x 0%N) as [->|Hx]; [now rewrite pretty_N_go_0|].
  rewrite (pretty_N_go_step x) by lia. rewrite pretty_N_go_app.
  assert (Hlt : (x / 10 < x)%N) by (apply N.div_lt; lia).
  destruct (IH _ Hlt) as (Hd & Hv & _).
  destruct (digit_char_value (x mod 10)%N) as (Hc & Hcv);
    [apply N.mod_lt; lia|].
  split; [|split].
  - rewrite all_digits_app, Hd. simpl. now rewrite Hc.
  - unfold Py.int_of_digits in *. rewrite int_acc_app, Hv. simpl.
    rewrite Hcv. pose proof (N.div_mod x 10%N). lia.
  - intros _. destruct (pretty_N_go (x / 10)%N ""); discriminate.
Qed.

Lemma int_of_pretty_N (x : N) :
  x <> 0%N ->
  Date.all_digits (pretty_N_go x "") = true
  /\ Py.int_unsigned (pretty_N_go x "") = Some (Z.of_N x).
Proof.
  intros Hx. destruct (pretty_N_go_digits x) as (Hd & Hv & Hne).
  split; [exact Hd|].
  destruct (pretty_N_go x "") as [|c s] eqn:Hp; [now destruct (Hne Hx)|].
  now rewrite (int_unsigned_digits c s Hd), Hv.
Qed.

(** The text [str] writes for an integer has no blank in it, and [int]
    reads the integer back from it. *)
Theorem int_str_round_trip (n : Z) :
  Py.strip (Py.str n) = Py.str n /\ Py.int (Py.str n) = Some n.
Proof.
  unfold Py.str, pretty, pretty_Z.
  destruct n as [|p|p]; [now vm_compute| |].
  - unfold pretty, pretty_positive, pretty, pretty_N.
    destruct (decide (N.pos p = 0%N)) as [H|H]; [discriminate|].
    destruct (int_of_pretty_N (N.pos p) H) as (Hd & Hi).
    assert (Hs : Py.strip (pretty_N_go (N.pos p) "") = pretty_N_go (N.pos p) "")
      by (now apply strip_no_blank, all_digits_no_blank).
    split; [exact Hs|]. unfold Py.int. rewrite Hs.
    destruct (pretty_N_go (N.pos p) "") as [|c s] eqn:Hp; [discriminate|].
    simpl in Hd. apply andb_true_iff in Hd as [Hc _].
    destruct (digit_not_sign c Hc) as (-> & -> & _). exact Hi.
  - unfold pretty, pretty_positive, pretty, pretty_N.
    destruct (decide (N.pos p = 0%N)) as [H|H]; [discriminate|].
    destruct (int_of_pretty_N (N.pos p) H) as (Hd & Hi).
    assert (Hs : Py.strip ("-" +:+ pretty_N_go (N.pos p) "")
                 = "-" +:+ pretty_N_go (N.pos p) "").
    { apply strip_no_blank. rewrite sapp_cons. simpl.
      now apply all_digits_no_blank. }
    split; [exact Hs|]. unfold Py.int. rewrite Hs, sapp_cons.
    change (Nat.eqb (Py.code "-") 45) with true. cbv iota.
    change ("" +:+ pretty_N_go (N.pos p) "") with (pretty_N_go (N.pos p) "").
    now rewrite Hi.
Qed.

Lemma read_watermark_written (path : string) (w : world) (n : Z) :
  fs w !! path = Some (Text (Py.str n)) -> read_watermark path w = n.
Proof.
  intros H. unfold read_watermark. rewrite H.
  destruct (int_str_round_trip n) as [-> ->]. reflexivity.
Qed.

Lemma select_watermark_above (m : Z) (listing : list MemoRow) :
  (forall x, In x listing -> memo_number x <= m) ->
  select_watermark m listing = [].
Proof.
  unfold select_watermark. induction listing as [|x l IH]; intros Hmax;
    [reflexivity|]. simpl.
  destruct (Z.ltb_spec m (memo_number x)) as [Hlt|_].
  - specialize (Hmax x (or_introl eq_refl)). lia.
  - apply IH. intros y Hy. apply Hmax. now right.
Qed.

Lemma select_watermark_max (listing : list MemoRow) :
  select_watermark (max_num listing) listing = [].
Proof. apply select_watermark_above, max_num_spec. Qed.

(** A second run is idle: once the last stage has completed and written
    the state file, the watermark read back is the largest number of the
    listing, and a run in watermark mode over the same listing selects
    nothing. *)
Theorem rerun_after_last_stage_selects_nothing
    (args : Namespace) (r : run) (df : list Row) (w w' : world) (next_day : date) :
  since_posted_days args = None ->
  writable (state args) = true ->
  finish args r (parse_search_listing (page r)) df w = (Ok tt, w') ->
  read_watermark (state args) w' = max_num (parse_search_listing (page r))
  /\ pick args next_day w' (parse_search_listing (page r)) = Ok [].
Proof.
  intros Hmode Hw Hrun.
  pose proof (finish_writes_state _ _ _ _ _ _ Hrun Hw) as Hstate.
  apply read_watermark_written in Hstate. split; [exact Hstate|].
  unfold pick. rewrite Hmode, Hstate. now rewrite select_watermark_max.
Qed.

End Program.

(* ================================================================== *)
(** * Instances of the properties *)
(* ================================================================== *)

Lemma reverse_stock_split_title_is_split_witness :
  classify_event "Notice of Reverse Stock Split — XYZ" None = Some "split".
Proof.
  apply reverse_stock_split_title_is_split; reflexivity.
Defined.

(** C2 (as stated) fails: the label line of [Sample.memo_bad_label] matches
    and its date does not normalise, so the effective date is absent,
    although the date field line below it matches and normalises. *)
Lemma bad_label_date_blocks_cascade :
  ~ absent_only_if_no_step_usable Dateutil.parse Sample.memo_bad_label.
Proof.
  intros Hclaim.
  apply (Hclaim eq_refl RE_DATE_FIELD); [right; now left|].
  exists "03/04/2025", "2025-03-04". split; reflexivity.
Qed.

Lemma watermark_mode_output_above_watermark_witness :
  read_watermark "./occ_last_number.txt" (Sample.seen_up_to "101")
  < c_memo_number Sample.row_103.
Proof.
  apply (watermark_mode_output_above_watermark Dateutil.parse Sample.fetch
           (Sample.args false None) Sample.this_run (Sample.seen_up_to "101")
           false Sample.row_103).
  - reflexivity.
  - vm_compute. now left.
Defined.





(** C4 (as stated) fails: in lookback mode with no recent posting the
    sample run picks nothing and returns; the listing is not empty, and the
    state file, absent before the run, is still absent after it. *)
Lemma early_return_skips_state_rewrite :
  ~ state_rewritten_with_max Dateutil.parse Sample.fetch Sample.render
      Sample.writable (Sample.args false (Some 1)) Sample.this_run Sample.no_files.
Proof.
  intros Hclaim.
  assert (Hlisting : parse_search_listing Dateutil.parse (page Sample.this_run) <> [])
    by (vm_compute; discriminate).
  specialize (Hclaim Hlisting). vm_compute in Hclaim. discriminate.
Qed.

(** C5.  On the sample run, memo 103 takes effect on 2025-05-01 and the day
    is 2025-06-01.  Whether the past-effective toggle is set or not, the
    run raises [AttributeError] at the condition that should read the
    toggle, and no file has been written. *)
Theorem exclude_past_effective_read_raises (toggle : bool) :
  In Sample.row_103
     (output_rows Dateutil.parse Sample.fetch (Sample.args toggle None)
        Sample.this_run (Sample.seen_up_to "101") false)
  /\ eff_d Sample.row_103 = Some (Date.mk 2025 5 1)
  /\ Date.ltb (Date.mk 2025 5 1) (today Sample.this_run) = true
  /\ fst (main Dateutil.parse Sample.fetch Sample.render Sample.writable
            (Sample.args toggle None) Sample.this_run (Sample.seen_up_to "101"))
     = Raise (AttributeError "'Namespace' object has no attribute 'exclude'")
  /\ fs (snd (main Dateutil.parse Sample.fetch Sample.render Sample.writable
                (Sample.args toggle None) Sample.this_run (Sample.seen_up_to "101")))
     = fs (Sample.seen_up_to "101").
Proof.
  destruct toggle; repeat split; try reflexivity; vm_compute; now left.
Qed.

(* ================================================================== *)
(** * Further checks on the sample data *)
(* ================================================================== *)

Example to_iso_long_date :
  _to_iso Dateutil.parse "March 3, 2025" = Some "2025-03-03".
Proof. reflexivity. Qed.

Example to_iso_numeric_date :
  _to_iso Dateutil.parse "03/04/2025" = Some "2025-03-04".
Proof. reflexivity. Qed.

Example market_open_sentence :
  search_group RE_MARKET_OPEN_LINE
    "The change becomes Effective before the opening of the business on March 5, 2025."
  = Some "March 5, 2025".
Proof. reflexivity. Qed.

Example subject_with_tender_offer :
  classify_event "Information Memo" (Some "ABC Inc - Tender Offer") = Some "tender".
Proof. reflexivity. Qed.

Example fallback_reverse_split :
  classify_event "XYZ reverse/forward split." None = Some "reverse split".
Proof. reflexivity. Qed.

Example fallback_ratio :
  classify_event "ABC 3 for 2 distribution" None = Some "split".
Proof. reflexivity. Qed.

Example nothing_to_classify :
  classify_event "ABC Inc - Cash Distribution" None = None.
Proof. reflexivity. Qed.

(** With the listing 103, 102, 101 and the watermark 101, the selection is
    102 and 103. *)
Example selection_after_101 :
  map memo_number
    (select_watermark 101 (parse_search_listing Dateutil.parse Sample.page))
  = [103; 102].
Proof. reflexivity. Qed.

(** The last stage, run on its own over the sample listing, leaves the
    largest number of the listing in the state file. *)
Example last_stage_writes_103 :
  let end_of_run :=
    finish Sample.render Sample.writable (Sample.args false None) Sample.this_run
           (parse_search_listing Dateutil.parse Sample.page)
           [Sample.row_103; Sample.row_102] (Sample.seen_up_to "101") in
  fst end_of_run = Ok tt
  /\ fs (snd end_of_run) !! "./occ_last_number.txt" = Some (Text "103")
  /\ fs (snd end_of_run) !! "./out/latest.csv"
     = Some (Csv [Sample.row_103; Sample.row_102]).
Proof. vm_compute. repeat split. Qed.

(** With the past-effective rule applied, the line of memo 103 (effective
    2025-05-01, before the sample day) goes and the line of memo 102 (no
    effective date) stays; without it both stay. *)
Example past_effective_rule_on_sample :
  drop_past_effective Sample.today [Sample.row_103; Sample.row_102] = [Sample.row_102]
  /\ final_frame false Sample.today
       (enrich Dateutil.parse Sample.fetch
          (include_text (Sample.args false None))
          (select_watermark 101 (parse_search_listing Dateutil.parse Sample.page)))
     = [Sample.row_103; Sample.row_102].
Proof. split; reflexivity. Qed.

(* ================================================================== *)
(** * Instances of the further properties *)
(* ================================================================== *)

Lemma after_taxonomy_only_ratio_gives_split_witness :
  Py.contains "stock split" "abc 3 for 2 distribution " = false
  /\ classify_text "abc 3 for 2 distribution "
     = (if Py.contains "reverse" "abc 3 for 2 distribution "
           && Py.contains "split" "abc 3 for 2 distribution "
        then Some "reverse split"
        else if found RE_RATIO "abc 3 for 2 distribution "
             then Some "split" else None).
Proof.
  apply after_taxonomy_only_ratio_gives_split. reflexivity.
Defined.

Lemma rerun_after_last_stage_selects_nothing_witness :
  pick (Sample.args false None) Sample.today
       (snd (finish Sample.render Sample.writable (Sample.args false None)
               Sample.this_run (parse_search_listing Dateutil.parse Sample.page)
               [Sample.row_103; Sample.row_102] (Sample.seen_up_to "101")))
       (parse_search_listing Dateutil.parse (page Sample.this_run))
  = Ok [].
Proof.
  apply (rerun_after_last_stage_selects_nothing Dateutil.parse Sample.render
           Sample.writable (Sample.args false None) Sample.this_run
           [Sample.row_103; Sample.row_102] (Sample.seen_up_to "101")).
  - reflexivity.
  - reflexivity.
  - vm_compute. reflexivity.
Defined.
